(** * Product catalog page: store, renderer and click handlers

  A shallow embedding of [Internal Design/script .js]: the in-memory
  [products] array, the image and label resolution done inside
  [renderProducts], the [<img>] markup of the template literal and the
  image element the HTML tokenizer builds from it, with its [onerror]
  handler, and the click handler with its edit and delete branches. *)

From Stdlib Require Import String Ascii List Bool Arith Lia QArith_base.
From ExtLib Require Import Structures.Monad Structures.MonadState.
From ExtLib Require Import Data.Monads.StateMonad.
Import ListNotations.
Import MonadNotation.

Local Close Scope Q_scope.
Local Open Scope string_scope.
Local Open Scope bool_scope.
Local Open Scope monad_scope.

(** ** JavaScript values used by the fragment *)

Module Js.

(** A value that is a string or [undefined] (an omitted object field, a
    missing [data-*] attribute, the result of [Array.find] on a miss). *)
Definition optional (A : Type) := option A.

(** Truthiness of a string-or-undefined value: [undefined] and the empty
    string are falsy, every other string is truthy. *)
Definition truthy (v : optional string) : bool :=
  match v with
  | Some (String _ _) => true
  | Some EmptyString => false
  | None => false
  end.

(** [v || d] where [d] is a string. *)
Definition or_else (v : optional string) (d : string) : string :=
  match v with
  | Some (String c s) => String c s
  | Some EmptyString => d
  | None => d
  end.

(** [a === b] for a string [a] and a string-or-undefined [b]. *)
Definition strict_eq (a : string) (b : optional string) : bool :=
  match b with
  | Some b' => String.eqb a b'
  | None => false
  end.

(** [xs.contains(c)] on a [classList]. *)
Definition contains (xs : list string) (c : string) : bool :=
  existsb (String.eqb c) xs.

End Js.

(** ** Data model *)

(** A product record, as the object literal of the [products] array has it.
  [name] and [imageUrl] may be omitted. *)
Record product := {
id : string;
name : Js.optional string;
categoryId : string;
price : Q;
imageUrl : Js.optional string;
attributes : list (string * string)
}.

(** The record the source lists. *)
Definition dress : product := {|
id := "prod-dress-001";
name := Some "Summer Floral Dress";
categoryId := "cat-dresses";
price := Qmake 3500 1;
imageUrl := Some "https://placehold.co/300x200/4CAF50/FFFFFF?text=Floral+Dress";
attributes := [("Style", "A-Line"); ("Material", "Cotton"); ("Length", "Knee-length")]
|}.

(** ** URL validation *)

Module Url.

Definition code (c : ascii) : nat := nat_of_ascii c.

Definition between (lo hi : nat) (c : ascii) : bool :=
  Nat.leb lo (code c) && Nat.leb (code c) hi.

Definition is_alpha (c : ascii) : bool := between 65 90 c || between 97 122 c.
Definition is_digit (c : ascii) : bool := between 48 57 c.

Definition one_of (cs : string) (c : ascii) : bool :=
  existsb (Ascii.eqb c) (list_ascii_of_string cs).

(** scheme = ALPHA *( ALPHA / DIGIT / "+" / "-" / "." ) *)
Definition is_scheme_char (c : ascii) : bool :=
  is_alpha c || is_digit c || one_of "+-." c.

(** Characters of the part after the scheme: unreserved, reserved
    (gen-delims and sub-delims) and the percent sign of an escape. *)
Definition is_url_char (c : ascii) : bool :=
  is_alpha c || is_digit c || one_of "-._~:/?#[]@!$&'()*+,;=%" c.

Fixpoint all_chars (f : ascii -> bool) (s : string) : bool :=
  match s with
  | EmptyString => true
  | String c s' => f c && all_chars f s'
  end.

Record url := { scheme : string; hier : string }.

Inductive parse_error :=
| MissingScheme
| InvalidCharacter.

(** Reads scheme characters up to the first colon; gives the scheme and
    what follows the colon. *)
Fixpoint scan_scheme (s : string) : option (string * string) :=
  match s with
  | EmptyString => None
  | String c s' =>
      if Ascii.eqb c ":" then Some (EmptyString, s')
      else if is_scheme_char c then
        match scan_scheme s' with
        | Some (sch, rest) => Some (String c sch, rest)
        | None => None
        end
      else None
  end.

(** Modelled from the spec: the URL parser behind [isValidUrl], whose
    definition the fragment does not show. A string parses when it is a
    scheme (a letter, then letters, digits, [+], [-], [.]), a colon, and
    an authority/path part made of URL characters only; anything else is
    a parse error. *)
Definition parse (s : string) : parse_error + url :=
  match s with
  | EmptyString => inl MissingScheme
  | String c _ =>
      if is_alpha c then
        match scan_scheme s with
        | Some (sch, rest) =>
            if all_chars is_url_char rest
            then inr {| scheme := sch; hier := rest |}
            else inl InvalidCharacter
        | None => inl MissingScheme
        end
      else inl MissingScheme
  end.

(** The declarative reading of "structurally well-formed URL": a scheme,
    a colon, and an authority/path part. *)
Definition scheme_ok (sch : string) : Prop :=
  exists c tl, sch = String c tl /\ is_alpha c = true
               /\ all_chars is_scheme_char tl = true.

Definition well_formed (s : string) : Prop :=
  exists sch rest,
    s = sch ++ String ":" rest
    /\ scheme_ok sch
    /\ all_chars is_url_char rest = true.

End Url.

(** Modelled from the spec: [isValidUrl], called by the image resolution
  but defined outside the fragment. It tries to parse its argument and
  turns a parse error into [false]. *)
Definition isValidUrl (s : string) : bool :=
match Url.parse s with
| inr _ => true
| inl _ => false
end.

(** ** The image element and its display fragment *)

Definition noImagePlaceholder : string :=
  "https://placehold.co/100x100/CCCCCC/666666?text=No+Image".

Definition imageErrorPlaceholder : string :=
  "https://placehold.co/150x100/CCCCCC/666666?text=Image+Error".

(** [product.imageUrl && isValidUrl(product.imageUrl) ? product.imageUrl : ...] *)
Definition resolveImageUrl (p : product) : string :=
  match imageUrl p with
  | Some u => if Js.truthy (Some u) && isValidUrl u then u else noImagePlaceholder
  | None => noImagePlaceholder
  end.

(** [product.name || 'Product'] *)
Definition resolveAlt (p : product) : string := Js.or_else (name p) "Product".

(** Statements of an inline event handler, with [this] the element. *)
Inductive stmt :=
| AssignOnerrorNull
| AssignSrc (u : string).

Record img := {
  src : string;
  alt : string;
  className : string;
  onerror : option (list stmt)
}.

Definition dq : string := String (ascii_of_nat 34) EmptyString.

(** The template literal put into [productCard.innerHTML]. *)
Definition imgHtml (p : product) : string :=
  "<img src=" ++ dq ++ resolveImageUrl p ++ dq
  ++ " alt=" ++ dq ++ resolveAlt p ++ dq
  ++ " class=" ++ dq ++ "product-image" ++ dq
  ++ " onerror=" ++ dq
  ++ "this.onerror=null;this.src='https://placehold.co/150x100/CCCCCC/666666?text=Image+Error';"
  ++ dq ++ ">".

(** The element the template is written to declare: the interpolated
    values as attribute values, and the fallback as handler. What the
    browser builds from the markup is [Html.renderImg] below; the two
    agree when the interpolated values are plain text. *)
Definition imgElement (p : product) : img := {|
  src := resolveImageUrl p;
  alt := resolveAlt p;
  className := "product-image";
  onerror := Some [AssignOnerrorNull; AssignSrc imageErrorPlaceholder]
|}.

Definition exec_stmt (e : img) (st : stmt) : img :=
  match st with
  | AssignOnerrorNull =>
      {| src := src e; alt := alt e; className := className e; onerror := None |}
  | AssignSrc u =>
      {| src := u; alt := alt e; className := className e; onerror := onerror e |}
  end.

(** A load failure runs the handler the element has at that moment, if
    any; the boolean tells whether one ran. *)
Definition loadError (e : img) : img * bool :=
  match onerror e with
  | Some sts => (fold_left exec_stmt sts e, true)
  | None => (e, false)
  end.

(** [n] load failures in a row, with the number of handler runs. *)
Fixpoint loadErrors (n : nat) (e : img) : img * nat :=
  match n with
  | O => (e, 0)
  | S n' =>
      let (e1, fired) := loadError e in
      let (e2, k) := loadErrors n' e1 in
      (e2, (if fired then 1 else 0) + k)
  end.

(** ** What the browser builds from the markup *)

Module Html.

Definition codeIs (n : nat) (c : ascii) : bool := Nat.eqb (nat_of_ascii c) n.

(** Tab, line feed, form feed and space. *)
Definition isSpace (c : ascii) : bool :=
  codeIs 9 c || codeIs 10 c || codeIs 12 c || codeIs 32 c.

Definition isQuote (c : ascii) : bool := codeIs 34 c.
Definition isApostrophe (c : ascii) : bool := codeIs 39 c.
Definition isAmpersand (c : ascii) : bool := codeIs 38 c.
Definition isSlash (c : ascii) : bool := codeIs 47 c.
Definition isEquals (c : ascii) : bool := codeIs 61 c.
Definition isGreater (c : ascii) : bool := codeIs 62 c.
Definition isLess (c : ascii) : bool := codeIs 60 c.
Definition isNull (c : ascii) : bool := codeIs 0 c.
Definition isCR (c : ascii) : bool := codeIs 13 c.
Definition isLF (c : ascii) : bool := codeIs 10 c.

Definition lower (c : ascii) : ascii :=
  if Url.between 65 90 c then ascii_of_nat (nat_of_ascii c + 32) else c.

(** U+FFFD, as UTF-8 bytes. *)
Definition replacement : string :=
  String (ascii_of_nat 239) (String (ascii_of_nat 191)
    (String (ascii_of_nat 189) EmptyString)).

Definition valueText (c : ascii) : string :=
  if isNull c then replacement else String c EmptyString.

Definition nameText (c : ascii) : string :=
  if isNull c then replacement else String (lower c) EmptyString.

(** Preprocessing of the input stream: CR LF and a lone CR become LF. *)
Fixpoint normalizeNewlines (s : string) : string :=
  match s with
  | EmptyString => EmptyString
  | String c s' =>
      if isCR c then
        String (ascii_of_nat 10)
          match s' with
          | EmptyString => EmptyString
          | String c' s'' =>
              if isLF c' then normalizeNewlines s'' else normalizeNewlines s'
          end
      else String c (normalizeNewlines s')
  end.

(** States of the tokenizer inside a start tag. *)
Inductive state :=
| TagName
| BeforeAttributeName
| AttributeName
| AfterAttributeName
| BeforeAttributeValue
| AttributeValueDoubleQuoted
| AttributeValueSingleQuoted
| AttributeValueUnquoted
| AfterAttributeValueQuoted
| SelfClosingStartTag
| Emitted.

(** A start tag token: the attributes finished so far, with their raw
    values, and the attribute being read. *)
Record token := {
  tagName : string;
  attrs : list (string * string);
  current : option (string * string)
}.

Definition emptyToken : token :=
  {| tagName := EmptyString; attrs := []; current := None |}.

Definition hasAttr (n : string) (t : token) : bool :=
  existsb (fun a => String.eqb (fst a) n) (attrs t).

(** The attribute being read is added to the token, unless the token
    already has one of that name: then it is dropped with its value. *)
Definition commit (t : token) : token :=
  match current t with
  | Some (n, v) =>
      {| tagName := tagName t;
         attrs := if hasAttr n t then attrs t else attrs t ++ [(n, v)];
         current := None |}
  | None => t
  end.

Definition startAttr (n : string) (t : token) : token :=
  {| tagName := tagName (commit t); attrs := attrs (commit t);
     current := Some (n, EmptyString) |}.

Definition addToName (x : string) (t : token) : token :=
  match current t with
  | Some (n, v) =>
      {| tagName := tagName t; attrs := attrs t; current := Some (n ++ x, v) |}
  | None => t
  end.

Definition addToValue (x : string) (t : token) : token :=
  match current t with
  | Some (n, v) =>
      {| tagName := tagName t; attrs := attrs t; current := Some (n, v ++ x) |}
  | None => t
  end.

Definition addToTagName (x : string) (t : token) : token :=
  {| tagName := tagName t ++ x; attrs := attrs t; current := current t |}.

Definition afterAttributeName (t : token) (c : ascii) : state * token :=
  if isSpace c then (AfterAttributeName, t)
  else if isSlash c then (SelfClosingStartTag, t)
  else if isEquals c then (BeforeAttributeValue, t)
  else if isGreater c then (Emitted, commit t)
  else (AttributeName, addToName (nameText c) (startAttr EmptyString t)).

Definition attributeName (t : token) (c : ascii) : state * token :=
  if isSpace c || isSlash c || isGreater c then afterAttributeName t c
  else if isEquals c then (BeforeAttributeValue, t)
  else (AttributeName, addToName (nameText c) t).

Definition beforeAttributeName (t : token) (c : ascii) : state * token :=
  if isSpace c then (BeforeAttributeName, t)
  else if isSlash c || isGreater c then afterAttributeName t c
  else if isEquals c then
    (AttributeName, startAttr (String c EmptyString) t)
  else attributeName (startAttr EmptyString t) c.

Definition attributeValueUnquoted (t : token) (c : ascii) : state * token :=
  if isSpace c then (BeforeAttributeName, t)
  else if isGreater c then (Emitted, commit t)
  else (AttributeValueUnquoted, addToValue (valueText c) t).

Definition step (st : state) (t : token) (c : ascii) : state * token :=
  match st with
  | TagName =>
      if isSpace c then (BeforeAttributeName, t)
      else if isSlash c then (SelfClosingStartTag, t)
      else if isGreater c then (Emitted, commit t)
      else (TagName, addToTagName (nameText c) t)
  | BeforeAttributeName => beforeAttributeName t c
  | AttributeName => attributeName t c
  | AfterAttributeName => afterAttributeName t c
  | BeforeAttributeValue =>
      if isSpace c then (BeforeAttributeValue, t)
      else if isQuote c then (AttributeValueDoubleQuoted, t)
      else if isApostrophe c then (AttributeValueSingleQuoted, t)
      else if isGreater c then (Emitted, commit t)
      else attributeValueUnquoted t c
  | AttributeValueDoubleQuoted =>
      if isQuote c then (AfterAttributeValueQuoted, t)
      else (AttributeValueDoubleQuoted, addToValue (valueText c) t)
  | AttributeValueSingleQuoted =>
      if isApostrophe c then (AfterAttributeValueQuoted, t)
      else (AttributeValueSingleQuoted, addToValue (valueText c) t)
  | AttributeValueUnquoted => attributeValueUnquoted t c
  | AfterAttributeValueQuoted =>
      if isSpace c then (BeforeAttributeName, t)
      else if isSlash c then (SelfClosingStartTag, t)
      else if isGreater c then (Emitted, commit t)
      else beforeAttributeName t c
  | SelfClosingStartTag =>
      if isGreater c then (Emitted, commit t)
      else beforeAttributeName t c
  | Emitted => (Emitted, t)
  end.

(** The tokenizer run over the characters of a string; once the tag is
    emitted the rest belongs to later nodes. *)
Fixpoint feed (st : state) (t : token) (s : string) : state * token :=
  match s with
  | EmptyString => (st, t)
  | String c s' => let (st', t') := step st t c in feed st' t' s'
  end.

(** The start tag a piece of markup begins with; nothing when it does
    not begin with one or the input ends inside the tag. *)
Definition tokenize (s : string) : option token :=
  match s with
  | String c0 (String c1 rest) =>
      if isLess c0 && Url.is_alpha c1 then
        match feed TagName emptyToken (String c1 rest) with
        | (Emitted, t) => Some t
        | _ => None
        end
      else None
  | _ => None
  end.

Definition getAttribute (n : string) (t : token) : option string :=
  option_map snd (find (fun a => String.eqb (fst a) n) (attrs t)).

(** What follows an ampersand in an attribute value. *)
Inductive reference :=
| Decoded (c : ascii) (consumed : nat)
| NotAReference
| OutsideTheModel.

Definition referenceAt (rest : string) : reference :=
  if prefix "amp;" rest then Decoded (ascii_of_nat 38) 4
  else if prefix "lt;" rest then Decoded (ascii_of_nat 60) 3
  else if prefix "gt;" rest then Decoded (ascii_of_nat 62) 3
  else if prefix "quot;" rest then Decoded (ascii_of_nat 34) 5
  else
    match rest with
    | EmptyString => NotAReference
    | String c _ =>
        if Url.is_alpha c || Url.is_digit c || codeIs 35 c
        then OutsideTheModel
        else NotAReference
    end.

(** Character references of an attribute value: the four references
    above are replaced, an ampersand that starts no reference stays, and
    any other reference is outside the model ([None]). [skip] characters
    of a reference just replaced are passed over. *)
Fixpoint decodeFrom (skip : nat) (s : string) : option string :=
  match s with
  | EmptyString => Some EmptyString
  | String c rest =>
      match skip with
      | S k => decodeFrom k rest
      | O =>
          if isAmpersand c then
            match referenceAt rest with
            | Decoded d n => option_map (String d) (decodeFrom n rest)
            | NotAReference => option_map (String c) (decodeFrom 0 rest)
            | OutsideTheModel => None
            end
          else option_map (String c) (decodeFrom 0 rest)
      end
  end.

Definition decodeReferences (s : string) : option string := decodeFrom 0 s.

(** The body of an event handler attribute, for the two statements the
    fragment writes, each closed by a semicolon. *)
Fixpoint stripPrefix (pre s : string) : option string :=
  match pre, s with
  | EmptyString, _ => Some s
  | String a pre', String b s' =>
      if Ascii.eqb a b then stripPrefix pre' s' else None
  | String _ _, EmptyString => None
  end.

(** The characters of a single-quoted literal up to its closing quote,
    which must end the statement; escapes and line breaks are outside
    the model. *)
Fixpoint literalBody (s : string) : option string :=
  match s with
  | EmptyString => None
  | String c s' =>
      if isApostrophe c then
        match s' with EmptyString => Some EmptyString | String _ _ => None end
      else if codeIs 92 c || isLF c || isCR c then None
      else option_map (String c) (literalBody s')
  end.

Definition classify (statement : string) : option stmt :=
  if String.eqb statement "this.onerror=null" then Some AssignOnerrorNull
  else
    match stripPrefix "this.src='" statement with
    | Some body => option_map AssignSrc (literalBody body)
    | None => None
    end.

Record handlerState := {
  parsed : list stmt;
  pending : string;
  inLiteral : bool
}.

Definition handlerStep (h : option handlerState) (c : ascii)
  : option handlerState :=
  match h with
  | None => None
  | Some h =>
      if inLiteral h then
        Some {| parsed := parsed h;
                pending := pending h ++ String c EmptyString;
                inLiteral := negb (isApostrophe c) |}
      else if codeIs 59 c then
        match classify (pending h) with
        | Some st => Some {| parsed := parsed h ++ [st];
                             pending := EmptyString; inLiteral := false |}
        | None => None
        end
      else
        Some {| parsed := parsed h;
                pending := pending h ++ String c EmptyString;
                inLiteral := isApostrophe c |}
  end.

(** A handler body as statements; [None] when it is not made of the two
    statements of the fragment. *)
Definition parseHandler (body : string) : option (list stmt) :=
  match fold_left handlerStep (list_ascii_of_string body)
          (Some {| parsed := []; pending := EmptyString; inLiteral := false |})
  with
  | Some h =>
      if negb (inLiteral h) && String.eqb (pending h) EmptyString
      then Some (parsed h) else None
  | None => None
  end.

Definition decodedAttribute (n : string) (t : token) : option string :=
  match getAttribute n t with
  | Some raw => decodeReferences raw
  | None => Some EmptyString
  end.

Definition handlerAttribute (n : string) (t : token)
  : option (option (list stmt)) :=
  match getAttribute n t with
  | Some raw =>
      match decodeReferences raw with
      | Some body => option_map Some (parseHandler body)
      | None => None
      end
  | None => Some None
  end.

(** The image element built from an [img] start tag. *)
Definition elementOf (t : token) : option img :=
  if String.eqb (tagName t) "img" then
    match decodedAttribute "src" t, decodedAttribute "alt" t,
          decodedAttribute "class" t, handlerAttribute "onerror" t with
    | Some s, Some a, Some c, Some h =>
        Some {| src := s; alt := a; className := c; onerror := h |}
    | _, _, _, _ => None
    end
  else None.

(** The image element the browser builds from markup that begins with an
    [img] tag; [None] when the markup leaves the modelled part of HTML
    or of the handler language. *)
Definition renderImg (markup : string) : option img :=
  match tokenize (normalizeNewlines markup) with
  | Some t => elementOf t
  | None => None
  end.

(** Characters that an attribute value in double quotes takes as they
    are: no double quote, ampersand, NUL or carriage return. *)
Definition plainChar (c : ascii) : bool :=
  negb (isQuote c || isAmpersand c || isNull c || isCR c).

Definition plainText (s : string) : bool := Url.all_chars plainChar s.

End Html.

(** The two values line 19 interpolates are plain text. *)
Definition interpolatesPlainly (p : product) : bool :=
  Html.plainText (resolveImageUrl p) && Html.plainText (resolveAlt p).

(** One display fragment: the product it stands for, the image markup
    and the image element the browser builds from it. *)
Record fragment := {
  source : product;
  image : option img;
  html : string
}.

Definition productCard (p : product) : fragment := {|
  source := p;
  image := Html.renderImg (imgHtml p);
  html := imgHtml p
|}.

(** ** Page state *)

Inductive effect :=
| Notification (message severity : string)
| Render (categoryFilter : Js.optional string).

Record page := {
  products : list product;
  filterCategorySelect : string;
  saveProductBtn : string;
  productForm : Js.optional product;
  productList : list fragment;
  effects : list effect
}.

Definition set_products (ps : list product) (s : page) : page :=
  {| products := ps; filterCategorySelect := filterCategorySelect s;
     saveProductBtn := saveProductBtn s; productForm := productForm s;
     productList := productList s; effects := effects s |}.

Definition set_saveProductBtn (l : string) (s : page) : page :=
  {| products := products s; filterCategorySelect := filterCategorySelect s;
     saveProductBtn := l; productForm := productForm s;
     productList := productList s; effects := effects s |}.

Definition set_productForm (r : Js.optional product) (s : page) : page :=
  {| products := products s; filterCategorySelect := filterCategorySelect s;
     saveProductBtn := saveProductBtn s; productForm := r;
     productList := productList s; effects := effects s |}.

Definition set_productList (fs : list fragment) (s : page) : page :=
  {| products := products s; filterCategorySelect := filterCategorySelect s;
     saveProductBtn := saveProductBtn s; productForm := productForm s;
     productList := fs; effects := effects s |}.

Definition emit (e : effect) (s : page) : page :=
  {| products := products s; filterCategorySelect := filterCategorySelect s;
     saveProductBtn := saveProductBtn s; productForm := productForm s;
     productList := productList s; effects := effects s ++ [e] |}.

(** Commands of the page: state passing over [page]. *)
Definition Cmd := state page.

Definition update (f : page -> page) : Cmd unit := modify f ;; ret tt.

Fixpoint forEach {A : Type} (xs : list A) (body : A -> Cmd unit) : Cmd unit :=
  match xs with
  | [] => ret tt
  | x :: xs' => body x ;; forEach xs' body
  end.

(** Modelled from the spec: [showNotification], an external collaborator;
    a fire-and-forget call with a message and a severity tag. *)
Definition showNotification (message severity : string) : Cmd unit :=
  update (emit (Notification message severity)).

(** Whether a product passes the category filter: an empty or absent
    filter selects everything. *)
Definition selected (categoryFilter : Js.optional string) (p : product) : bool :=
  negb (Js.truthy categoryFilter) || Js.strict_eq (categoryId p) categoryFilter.

(** [container.appendChild(productCard)] *)
Definition appendCard (p : product) : Cmd unit :=
  update (fun s => set_productList (productList s ++ [productCard p]) s).

(** Modelled from the spec: the loop of [renderProducts], of which the
    fragment shows only the image resolution and the image markup. It
    replaces the contents of the display surface: the surface is cleared,
    then one card is appended per selected product, in collection
    order. *)
Definition renderProducts (categoryFilter : Js.optional string) : Cmd unit :=
  update (emit (Render categoryFilter)) ;;
  update (set_productList []) ;;
  ps <- gets products ;;
  forEach ps (fun product =>
    if selected categoryFilter product then appendCard product else ret tt).

(** ** Click handlers *)

Record element := {
  classList : list string;
  dataset_id : Js.optional string
}.

Definition confirmDelete : string := "Are you sure you want to delete this product?".

(** Modelled from the spec: the logic to populate form fields, elided in
    the fragment. If the record was found it is handed to the
    form-population collaborator; on a miss nothing is handed over. *)
Definition populateForm (productToEdit : Js.optional product) : Cmd unit :=
  match productToEdit with
  | Some p => update (set_productForm (Some p))
  | None => ret tt
  end.

Section Handlers.

(** The blocking yes/no prompt: the user's answer to a message. *)
Variable confirm : string -> bool.

Definition handleEditIntent (productId : Js.optional string) : Cmd unit :=
  ps <- gets products ;;
  let productToEdit := find (fun p => Js.strict_eq (id p) productId) ps in
  populateForm productToEdit ;;
  update (set_saveProductBtn "Update Product").

Definition handleDeleteIntent (productId : Js.optional string) : Cmd unit :=
  if confirm confirmDelete then
    update (fun s =>
      set_products
        (filter (fun p => negb (Js.strict_eq (id p) productId)) (products s)) s) ;;
    showNotification "Product deleted successfully!" "success" ;;
    v <- gets filterCategorySelect ;;
    renderProducts (Some v)
  else ret tt.

Definition onClick (target : element) : Cmd unit :=
  if Js.contains (classList target) "edit-product-btn" then
    handleEditIntent (dataset_id target)
  else if Js.contains (classList target) "delete-product-btn" then
    handleDeleteIntent (dataset_id target)
  else ret tt.

End Handlers.

(** The page as first loaded: the listed record, no filter, the submit
    control in create mode, nothing rendered yet. *)
Definition initialPage : page := {|
  products := [dress];
  filterCategorySelect := EmptyString;
  saveProductBtn := "Save";
  productForm := None;
  productList := [];
  effects := []
|}.

(** ** Runs of the page *)

(** One click as the handler meets it: the element clicked, and the answer
    the user gives if the prompt is shown. *)
Record click := {
  target : element;
  answer : bool
}.

Definition handleClick (c : click) : Cmd unit :=
  onClick (fun _ => answer c) (target c).

(** Clicks handled one after another, each to completion. *)
Definition handleClicks (cs : list click) : Cmd unit := forEach cs handleClick.

(** The first branch of the handler is taken. *)
Definition isEditClick (c : click) : bool :=
  Js.contains (classList (target c)) "edit-product-btn".

(** The second branch is taken and the prompt is answered yes. *)
Definition isConfirmedDelete (c : click) : bool :=
  negb (Js.contains (classList (target c)) "edit-product-btn")
  && Js.contains (classList (target c)) "delete-product-btn"
  && answer c.

(** The display surface shows the cards of the collection under the
    current value of the category selector. *)
Definition inSync (s : page) : Prop :=
  productList s
  = map productCard
      (filter (selected (Some (filterCategorySelect s))) (products s)).

(** A button that carries both class names. *)
Definition bothClasses : element := {|
  classList := ["btn"; "delete-product-btn"; "edit-product-btn"];
  dataset_id := Some "prod-dress-001"
|}.

Definition deleteButton (i : Js.optional string) : element := {|
  classList := ["btn"; "delete-product-btn"];
  dataset_id := i
|}.

Definition editButton (i : Js.optional string) : element := {|
  classList := ["btn"; "edit-product-btn"];
  dataset_id := i
|}.

(** Products whose fields meet the markup of line 19. *)
Definition withName (n : string) : product := {|
  id := "prod-x";
  name := Some n;
  categoryId := "cat-dresses";
  price := Qmake 100 1;
  imageUrl := Some "https://example.com/a.png";
  attributes := []
|}.

Definition withImageUrl (u : string) : product := {|
  id := "prod-x";
  name := Some "Dress";
  categoryId := "cat-dresses";
  price := Qmake 100 1;
  imageUrl := Some u;
  attributes := []
|}.

(** A name with double quotes in it. *)
Definition quotedName : string := "Tom " ++ dq ++ "T" ++ dq ++ " Cat".

(** A name that closes the alt value and goes on with an attribute. *)
Definition handlerName : string := "x" ++ dq ++ " onerror=" ++ dq ++ "this.src='x';".

(** A URL with a character reference in its query. *)
Definition ampersandUrl : string := "https://example.com/a.png?x=1&amp;y=2".

(** The handler body the template writes. *)
Definition fallbackText : string :=
  "this.onerror=null;this.src='https://placehold.co/150x100/CCCCCC/666666?text=Image+Error';".

(** * Properties *)

(** ** Facts about the JavaScript operators *)

Lemma strict_eq_true a b : Js.strict_eq a b = true <-> b = Some a.
Proof.
  destruct b as [b|]; simpl.
  - rewrite String.eqb_eq. split; intros H; [subst | inversion H]; reflexivity.
  - split; discriminate.
Qed.

Lemma strict_eq_false a b : Js.strict_eq a b = false <-> b <> Some a.
Proof.
  rewrite <- strict_eq_true. destruct (Js.strict_eq a b); split; congruence.
Qed.

Lemma truthy_nonempty u : Js.truthy (Some u) = true <-> u <> EmptyString.
Proof.
  destruct u; simpl; split; congruence.
Qed.

(** ** The URL parser against the grammar *)

Lemma scheme_char_not_colon c :
  Url.is_scheme_char c = true -> Ascii.eqb c ":" = false.
Proof.
  intros H. destruct (Ascii.eqb_spec c ":") as [->|]; [|reflexivity].
  discriminate H.
Qed.

Lemma alpha_is_scheme_char c :
  Url.is_alpha c = true -> Url.is_scheme_char c = true.
Proof.
  intros H. unfold Url.is_scheme_char. rewrite H. reflexivity.
Qed.

Lemma scan_scheme_sound s :
  forall sch rest,
    Url.scan_scheme s = Some (sch, rest) ->
    s = sch ++ String ":" rest /\ Url.all_chars Url.is_scheme_char sch = true.
Proof.
  induction s as [|c s IH]; intros sch rest; simpl; [discriminate|].
  destruct (Ascii.eqb_spec c ":") as [->|Hc].
  - intros H. inversion H; subst. split; reflexivity.
  - destruct (Url.is_scheme_char c) eqn:Hs; [|discriminate].
    destruct (Url.scan_scheme s) as [[sch' rest']|] eqn:Hscan; [|discriminate].
    intros H. inversion H; subst.
    destruct (IH _ _ eq_refl) as [-> Hall].
    split; [reflexivity|]. simpl. rewrite Hs, Hall. reflexivity.
Qed.

Lemma scan_scheme_complete sch :
  forall rest,
    Url.all_chars Url.is_scheme_char sch = true ->
    Url.scan_scheme (sch ++ String ":" rest) = Some (sch, rest).
Proof.
  induction sch as [|c sch IH]; intros rest; simpl.
  - reflexivity.
  - intros H. apply andb_true_iff in H as [Hc Hall].
    rewrite (scheme_char_not_colon _ Hc), Hc, (IH _ Hall). reflexivity.
Qed.

Lemma parse_ok_well_formed s u : Url.parse s = inr u -> Url.well_formed s.
Proof.
  unfold Url.parse. destruct s as [|c s]; [discriminate|].
  destruct (Url.is_alpha c) eqn:Ha; [|discriminate].
  destruct (Url.scan_scheme (String c s)) as [[sch rest]|] eqn:Hscan; [|discriminate].
  destruct (Url.all_chars Url.is_url_char rest) eqn:Hrest; [|discriminate].
  intros _. apply scan_scheme_sound in Hscan as [Heq Hall].
  exists sch, rest. repeat split; trivial.
  destruct sch as [|c' tl]; simpl in Heq.
  - inversion Heq; subst. discriminate Ha.
  - inversion Heq; subst. simpl in Hall. apply andb_true_iff in Hall as [_ Htl].
    exists c', tl. auto.
Qed.

Lemma well_formed_parse_ok s :
  Url.well_formed s -> exists u, Url.parse s = inr u.
Proof.
  intros (sch & rest & -> & (c & tl & -> & Ha & Htl) & Hrest).
  assert (Hall : Url.all_chars Url.is_scheme_char (String c tl) = true).
  { simpl. rewrite (alpha_is_scheme_char _ Ha), Htl. reflexivity. }
  pose proof (scan_scheme_complete _ rest Hall) as Hscan.
  unfold Url.parse. cbn [String.append] in *. rewrite Ha, Hscan, Hrest.
  eexists. reflexivity.
Qed.

(** C8: [isValidUrl] is total, never fails, and answers [true] exactly on
    the strings that are a scheme, a colon and an authority/path part;
    a string that does not parse yields [false], not an error. *)
Theorem isValidUrl_decides_well_formed (s : string) :
  (exists b : bool, isValidUrl s = b)
  /\ (isValidUrl s = true <-> Url.well_formed s)
  /\ (isValidUrl s = false <-> exists e, Url.parse s = inl e).
Proof.
  unfold isValidUrl. split; [eexists; reflexivity|]. split; split.
  - destruct (Url.parse s) as [e|u] eqn:Hp; [discriminate|].
    intros _. exact (parse_ok_well_formed _ _ Hp).
  - intros H. destruct (well_formed_parse_ok _ H) as [u ->]. reflexivity.
  - destruct (Url.parse s) as [e|u]; [|discriminate]. intros _. eauto.
  - intros [e ->]. reflexivity.
Qed.

Example isValidUrl_not_a_url : isValidUrl "not a url" = false.
Proof. reflexivity. Qed.

Example isValidUrl_example_png : isValidUrl "https://example.com/a.png" = true.
Proof. reflexivity. Qed.

Lemma isValidUrl_noImagePlaceholder : isValidUrl noImagePlaceholder = true.
Proof. reflexivity. Qed.

Lemma isValidUrl_nonempty u : isValidUrl u = true -> u <> EmptyString.
Proof. intros H ->. discriminate H. Qed.

(** ** From the markup of line 19 to the image element *)

Lemma string_app_nil (s : string) : s ++ EmptyString = s.
Proof. induction s as [|c s IH]; simpl; [reflexivity | now rewrite IH]. Qed.

Lemma string_app_assoc (a b c : string) : (a ++ b) ++ c = a ++ (b ++ c).
Proof. induction a as [|x a IH]; simpl; [reflexivity | now rewrite IH]. Qed.

Lemma all_chars_app f a b :
  Url.all_chars f (a ++ b) = Url.all_chars f a && Url.all_chars f b.
Proof.
  induction a as [|c a IH]; simpl; [reflexivity|].
  now rewrite IH, andb_assoc.
Qed.

Lemma all_chars_weaken (f g : ascii -> bool) s :
  (forall c, f c = true -> g c = true) ->
  Url.all_chars f s = true -> Url.all_chars g s = true.
Proof.
  intros Hfg. induction s as [|c s IH]; simpl; [reflexivity|].
  intros H. apply andb_true_iff in H as [Hc Hs].
  now rewrite (Hfg _ Hc), IH.
Qed.

Lemma plainChar_split c :
  Html.plainChar c = true ->
  Html.isQuote c = false /\ Html.isAmpersand c = false
  /\ Html.isNull c = false /\ Html.isCR c = false.
Proof.
  unfold Html.plainChar. intros H. apply negb_true_iff in H.
  repeat (apply orb_false_iff in H as [H ?]). auto.
Qed.

Lemma normalizeNewlines_no_CR s :
  Url.all_chars (fun c => negb (Html.isCR c)) s = true ->
  Html.normalizeNewlines s = s.
Proof.
  induction s as [|c s IH]; simpl; [reflexivity|].
  intros H. apply andb_true_iff in H as [Hc Hs].
  apply negb_true_iff in Hc. now rewrite Hc, IH.
Qed.

Lemma feed_app a :
  forall st t b,
    Html.feed st t (a ++ b)
    = let (st', t') := Html.feed st t a in Html.feed st' t' b.
Proof.
  induction a as [|c a IH]; intros st t b; simpl; [reflexivity|].
  destruct (Html.step st t c) as [st' t']. apply IH.
Qed.

Lemma feed_double_quoted_plain v :
  forall tn ats n v0,
    Html.plainText v = true ->
    Html.feed Html.AttributeValueDoubleQuoted
      {| Html.tagName := tn; Html.attrs := ats; Html.current := Some (n, v0) |}
      v
    = (Html.AttributeValueDoubleQuoted,
       {| Html.tagName := tn; Html.attrs := ats;
          Html.current := Some (n, v0 ++ v) |}).
Proof.
  induction v as [|c v IH]; intros tn ats n v0 Hv.
  - simpl. now rewrite string_app_nil.
  - simpl in Hv. apply andb_true_iff in Hv as [Hc Hv].
    destruct (plainChar_split _ Hc) as (Hq & _ & Hn & _).
    cbn [Html.feed Html.step]. rewrite Hq. unfold Html.valueText. rewrite Hn.
    cbn [Html.addToValue Html.current Html.tagName Html.attrs].
    rewrite IH by exact Hv. rewrite string_app_assoc. reflexivity.
Qed.

Lemma decodeReferences_plain s :
  Html.plainText s = true -> Html.decodeReferences s = Some s.
Proof.
  unfold Html.decodeReferences.
  induction s as [|c s IH]; simpl; [reflexivity|].
  intros H. apply andb_true_iff in H as [Hc Hs].
  destruct (plainChar_split _ Hc) as (_ & Ha & _ & _).
  now rewrite Ha, IH.
Qed.

Lemma tokenize_imgHtml p :
  interpolatesPlainly p = true ->
  Html.tokenize (imgHtml p)
  = Some {| Html.tagName := "img";
            Html.attrs := [("src", resolveImageUrl p); ("alt", resolveAlt p);
                           ("class", "product-image");
                           ("onerror", fallbackText)];
            Html.current := None |}.
Proof.
  intros Hp. apply andb_true_iff in Hp as [Hu Ha].
  unfold imgHtml.
  set (U := resolveImageUrl p) in *. set (A := resolveAlt p) in *.
  set (opening := "img src=" ++ dq).
  set (middle := dq ++ " alt=" ++ dq).
  set (closing := dq ++ " class=" ++ dq ++ "product-image" ++ dq
                  ++ " onerror=" ++ dq ++ fallbackText ++ dq ++ ">").
  change (Html.tokenize _) with
    (match Html.feed Html.TagName Html.emptyToken
             (opening ++ U ++ middle ++ A ++ closing) with
     | (Html.Emitted, t) => Some t
     | _ => None
     end).
  rewrite (feed_app opening).
  change (Html.feed Html.TagName Html.emptyToken opening)
    with (Html.AttributeValueDoubleQuoted,
          {| Html.tagName := "img"; Html.attrs := [];
             Html.current := Some ("src", EmptyString) |}).
  cbv beta iota.
  rewrite (feed_app U), (feed_double_quoted_plain U) by exact Hu.
  cbv beta iota. rewrite (feed_app middle).
  change (Html.feed Html.AttributeValueDoubleQuoted _ middle)
    with (Html.AttributeValueDoubleQuoted,
          {| Html.tagName := "img"; Html.attrs := [("src", U)];
             Html.current := Some ("alt", EmptyString) |}).
  cbv beta iota.
  rewrite (feed_app A), (feed_double_quoted_plain A) by exact Ha.
  reflexivity.
Qed.

Lemma renderImg_plain p :
  interpolatesPlainly p = true ->
  Html.renderImg (imgHtml p) = Some (imgElement p).
Proof.
  intros Hp. unfold Html.renderImg.
  assert (Hcr : Html.normalizeNewlines (imgHtml p) = imgHtml p).
  { apply normalizeNewlines_no_CR.
    apply andb_true_iff in Hp as [Hu Ha].
    assert (Hw : forall s, Html.plainText s = true ->
                 Url.all_chars (fun c => negb (Html.isCR c)) s = true).
    { intros s. apply all_chars_weaken. intros c Hc.
      destruct (plainChar_split _ Hc) as (_ & _ & _ & ->). reflexivity. }
    unfold imgHtml. rewrite !all_chars_app, (Hw _ Hu), (Hw _ Ha).
    reflexivity. }
  rewrite Hcr, (tokenize_imgHtml p Hp).
  apply andb_true_iff in Hp as [Hu Ha].
  unfold Html.elementOf, Html.decodedAttribute, Html.handlerAttribute,
    Html.getAttribute.
  cbn [Html.tagName Html.attrs find fst snd option_map String.eqb Ascii.eqb
       Bool.eqb].
  rewrite (decodeReferences_plain _ Hu), (decodeReferences_plain _ Ha).
  reflexivity.
Qed.

(** Plain fields are enough: the placeholder and the default label are
    plain text themselves. *)
Lemma plain_fields_interpolate p :
  (forall u, imageUrl p = Some u -> Html.plainText u = true) ->
  (forall n, name p = Some n -> Html.plainText n = true) ->
  interpolatesPlainly p = true.
Proof.
  intros Hu Hn. unfold interpolatesPlainly, resolveImageUrl, resolveAlt.
  apply andb_true_iff. split.
  - destruct (imageUrl p) as [u|]; [|reflexivity].
    destruct (Js.truthy (Some u) && isValidUrl u); [now apply Hu|reflexivity].
  - destruct (name p) as [[|c n]|]; try reflexivity. now apply Hn.
Qed.

Lemma resolveImageUrl_usable p u :
  imageUrl p = Some u -> Js.truthy (Some u) = true -> isValidUrl u = true ->
  resolveImageUrl p = u.
Proof.
  intros Hu Ht Hv. unfold resolveImageUrl. rewrite Hu, Ht, Hv. reflexivity.
Qed.

Lemma resolveImageUrl_unusable p :
  (forall u, imageUrl p = Some u ->
             Js.truthy (Some u) = false \/ isValidUrl u = false) ->
  resolveImageUrl p = noImagePlaceholder.
Proof.
  intros Hno. unfold resolveImageUrl. destruct (imageUrl p) as [u|]; trivial.
  destruct (Hno u eq_refl) as [-> | ->]; [reflexivity|].
  now rewrite andb_false_r.
Qed.

(** ** The claims about the image, at the inputs that break them *)

(** C4: an [imageUrl] that is truthy and passes [isValidUrl] is put in
    the markup as it is, so when it holds the character reference
    [&amp;] the source of the rendered image is the decoded text, not
    the [imageUrl]. *)
Theorem image_source_ampersand :
  let p := withImageUrl ampersandUrl in
  imageUrl p = Some ampersandUrl
  /\ Js.truthy (imageUrl p) = true
  /\ isValidUrl ampersandUrl = true
  /\ resolveImageUrl p = ampersandUrl
  /\ option_map src (image (productCard p))
     = Some "https://example.com/a.png?x=1&y=2"
  /\ option_map src (image (productCard p)) <> imageUrl p.
Proof.
  cbv zeta. repeat split; try reflexivity.
  intros H. vm_compute in H. discriminate H.
Qed.

(** C7: a name with a double quote in it ends the alt value of the
    markup early: for the name [Tom "T" Cat], which is neither absent nor
    empty, the alt text of the rendered image is [Tom ] and not the
    name. *)
Theorem alt_text_quoted_name :
  let p := withName quotedName in
  name p = Some quotedName
  /\ quotedName <> EmptyString
  /\ option_map alt (image (productCard p)) = Some "Tom "
  /\ option_map alt (image (productCard p)) <> name p.
Proof.
  cbv zeta. repeat split; try reflexivity.
  - discriminate.
  - intros H. vm_compute in H. discriminate H.
Qed.

(** ** The one-shot error fallback *)

Lemma loadErrors_disarmed (k : nat) :
  forall e, onerror e = None -> loadErrors k e = (e, 0).
Proof.
  induction k as [|k IH]; intros e He; simpl; [reflexivity|].
  unfold loadError. rewrite He, (IH e He). reflexivity.
Qed.

Lemma loadError_imgElement (p : product) :
  loadError (imgElement p)
  = ({| src := imageErrorPlaceholder; alt := resolveAlt p;
        className := "product-image"; onerror := None |}, true).
Proof. reflexivity. Qed.

Lemma loadErrors_never_disarmed (u : string) (n : nat) :
  forall e,
    onerror e = Some [AssignSrc u] ->
    snd (loadErrors n e) = n
    /\ onerror (fst (loadErrors n e)) = Some [AssignSrc u]
    /\ (src (fst (loadErrors n e)) = src e \/ src (fst (loadErrors n e)) = u).
Proof.
  induction n as [|n IH]; intros e He.
  - cbn. auto.
  - cbn [loadErrors]. unfold loadError. rewrite He. cbn [fold_left exec_stmt].
    set (e1 := {| src := u; alt := alt e; className := className e;
                  onerror := onerror e |}).
    destruct (IH e1 He) as (Hn & Hh & Hs).
    destruct (loadErrors n e1) as [e2 k]. cbn [fst snd] in *.
    repeat split; [now rewrite Hn | exact Hh |].
    right. destruct Hs as [-> | ->]; reflexivity.
Qed.

(** C5: a name that closes the alt value and goes on with an [onerror]
    attribute gives the rendered image that handler, since the first of
    two attributes of one name is kept: every load failure runs it, it
    is never cleared, and the Image Error placeholder is never shown. *)
Theorem error_fallback_injected_handler (n : nat) :
  exists e,
    image (productCard (withName handlerName)) = Some e
    /\ snd (loadErrors n e) = n
    /\ onerror (fst (loadErrors n e)) = Some [AssignSrc "x"]
    /\ src (fst (loadErrors n e)) <> imageErrorPlaceholder.
Proof.
  eexists. split; [vm_compute; reflexivity|].
  match goal with |- context [loadErrors n ?e] =>
    destruct (loadErrors_never_disarmed "x" n e eq_refl) as (Hn & Hh & Hs)
  end.
  repeat split; trivial.
  destruct Hs as [-> | ->]; discriminate.
Qed.

(** ** Running the commands *)

Lemma set_productList_same s : set_productList (productList s) s = s.
Proof. destruct s; reflexivity. Qed.

Lemma run_forEach_cards c ps :
  forall s,
    runState
      (forEach ps (fun product =>
         if selected c product then appendCard product else ret tt)) s
    = (tt, set_productList
             (productList s ++ map productCard (filter (selected c) ps)) s).
Proof.
  induction ps as [|p ps IH]; intros s.
  - cbn. rewrite app_nil_r, set_productList_same. reflexivity.
  - cbn [forEach filter]. cbn [bind Monad_state runState].
    destruct (selected c p).
    + cbn [appendCard update modify bind ret get put Monad_state
             MonadState_state runState].
      rewrite IH. cbn [set_productList productList map].
      rewrite <- app_assoc. reflexivity.
    + cbn [ret Monad_state runState]. apply IH.
Qed.

Lemma run_renderProducts c s :
  runState (renderProducts c) s
  = (tt, set_productList (map productCard (filter (selected c) (products s)))
           (emit (Render c) s)).
Proof.
  unfold renderProducts.
  cbn [update modify gets bind ret get put Monad_state MonadState_state runState].
  rewrite run_forEach_cards. reflexivity.
Qed.

Lemma run_handleDeleteIntent_yes confirm pid s :
  confirm confirmDelete = true ->
  runState (handleDeleteIntent confirm pid) s
  = (tt,
     let ps := filter (fun p => negb (Js.strict_eq (id p) pid)) (products s) in
     set_productList
       (map productCard (filter (selected (Some (filterCategorySelect s))) ps))
       (emit (Render (Some (filterCategorySelect s)))
          (emit (Notification "Product deleted successfully!" "success")
             (set_products ps s)))).
Proof.
  intros Hyes. unfold handleDeleteIntent. rewrite Hyes.
  cbn [showNotification update modify gets bind ret get put Monad_state
         MonadState_state runState].
  rewrite run_renderProducts. reflexivity.
Qed.

Lemma run_handleDeleteIntent_no confirm pid s :
  confirm confirmDelete = false ->
  runState (handleDeleteIntent confirm pid) s = (tt, s).
Proof.
  intros Hno. unfold handleDeleteIntent. rewrite Hno. reflexivity.
Qed.

Lemma run_handleEditIntent pid s :
  runState (handleEditIntent pid) s
  = (tt,
     match find (fun p => Js.strict_eq (id p) pid) (products s) with
     | Some p => set_saveProductBtn "Update Product" (set_productForm (Some p) s)
     | None => set_saveProductBtn "Update Product" s
     end).
Proof.
  unfold handleEditIntent.
  cbn [gets bind ret get Monad_state MonadState_state runState].
  destruct (find _ (products s)); reflexivity.
Qed.

(** ** List facts used by the handlers and the renderer *)

Lemma filter_keeps_all {A : Type} (f : A -> bool) (l : list A) :
  (forall x, In x l -> f x = true) -> filter f l = l.
Proof.
  induction l as [|a l IH]; intros H; simpl; [reflexivity|].
  rewrite (H a (or_introl eq_refl)). f_equal. apply IH.
  intros x Hx. apply H. now right.
Qed.

Lemma map_source_cards (l : list product) : map source (map productCard l) = l.
Proof.
  induction l as [|p l IH]; simpl; [reflexivity|]. now rewrite IH.
Qed.

Lemma selected_unfiltered p : selected None p = true.
Proof. reflexivity. Qed.

Lemma selected_empty p : selected (Some EmptyString) p = true.
Proof. reflexivity. Qed.

Lemma selected_category c p :
  c <> EmptyString -> selected (Some c) p = String.eqb (categoryId p) c.
Proof.
  intros Hc. unfold selected. destruct c; [congruence | reflexivity].
Qed.

Lemma NoDup_map_filter {A B : Type} (k : A -> B) (g : A -> bool) (l : list A) :
  NoDup (map k l) -> NoDup (map k (filter g l)).
Proof.
  induction l as [|a l IH]; simpl; intros H; [constructor|].
  inversion H as [|? ? Hnotin Hnd]; subst.
  destruct (g a); simpl; [|now apply IH].
  constructor; [|now apply IH].
  intros Hin. apply Hnotin. apply in_map_iff in Hin as (x & Hx & Hxin).
  apply in_map_iff. exists x. split; [exact Hx|].
  apply filter_In in Hxin. tauto.
Qed.

Lemma unique_id_once (ps : list product) (p : product) :
  NoDup (map id ps) -> In p ps ->
  length (filter (fun q => String.eqb (id q) (id p)) ps) = 1.
Proof.
  induction ps as [|a ps IH]; intros Hnd Hin; [destruct Hin|].
  simpl in Hnd. inversion Hnd as [|? ? Hnotin Hnd']; subst.
  simpl. destruct Hin as [-> | Hin].
  - rewrite String.eqb_refl. simpl. f_equal.
    assert (Hnone : filter (fun q => String.eqb (id q) (id p)) ps = []).
    { clear IH Hnd Hnd'. induction ps as [|b ps IHps]; simpl; [reflexivity|].
      destruct (String.eqb_spec (id b) (id p)) as [Heq|_].
      - exfalso. apply Hnotin. left. exact Heq.
      - apply IHps. intros H. apply Hnotin. now right. }
    now rewrite Hnone.
  - destruct (String.eqb_spec (id a) (id p)) as [Heq|_].
    + exfalso. apply Hnotin. rewrite Heq. now apply in_map.
    + now apply IH.
Qed.

Lemma count_cards_by_id (i : string) (l : list product) :
  length (filter (fun f => String.eqb (id (source f)) i) (map productCard l))
  = length (filter (fun q => String.eqb (id q) i) l).
Proof.
  induction l as [|a l IH]; simpl; [reflexivity|].
  destruct (String.eqb (id a) i); simpl; now rewrite IH.
Qed.

(** ** Rendering *)

Lemma productList_renderProducts c s :
  productList (execState (renderProducts c) s)
  = map productCard (filter (selected c) (products s)).
Proof. unfold execState. rewrite run_renderProducts. reflexivity. Qed.

Lemma products_renderProducts c s :
  products (execState (renderProducts c) s) = products s.
Proof. unfold execState. rewrite run_renderProducts. reflexivity. Qed.

(** C6: rendering with no filter gives one fragment per product, in
    collection order; rendering with a non-empty filter [c] gives the
    fragments of exactly the products whose [categoryId] is [c], in
    collection order, each of them once. *)
Theorem renderProducts_fragments (s : page) (c : string) :
  c <> EmptyString ->
  let all := productList (execState (renderProducts None) s) in
  let fs := productList (execState (renderProducts (Some c)) s) in
  length all = length (products s)
  /\ all = map productCard (products s)
  /\ map source all = products s
  /\ productList (execState (renderProducts (Some EmptyString)) s) = all
  /\ fs = map productCard
            (filter (fun p => String.eqb (categoryId p) c) (products s))
  /\ map source fs
     = filter (fun p => String.eqb (categoryId p) c) (products s)
  /\ Forall (fun f => categoryId (source f) = c) fs
  /\ (forall p, In p (products s) -> categoryId p = c -> In (productCard p) fs)
  /\ (NoDup (map id (products s)) ->
      forall p, In p (products s) -> categoryId p = c ->
        length (filter (fun f => String.eqb (id (source f)) (id p)) fs) = 1).
Proof.
  intros Hc. cbv zeta. rewrite !productList_renderProducts.
  rewrite (filter_keeps_all (selected None))
    by (intros; apply selected_unfiltered).
  rewrite (filter_keeps_all (selected (Some EmptyString)))
    by (intros; apply selected_empty).
  rewrite (filter_ext (selected (Some c))
             (fun p => String.eqb (categoryId p) c))
    by (intros; now apply selected_category).
  split; [now rewrite length_map|].
  split; [reflexivity|].
  split; [apply map_source_cards|].
  split; [reflexivity|].
  split; [reflexivity|].
  split; [apply map_source_cards|].
  split; [|split].
  - apply Forall_forall. intros f Hf.
    apply in_map_iff in Hf as (p & <- & Hp).
    apply filter_In in Hp as [_ Hp]. now apply String.eqb_eq in Hp.
  - intros p Hin Hcat. apply in_map. apply filter_In. split; [exact Hin|].
    now apply String.eqb_eq.
  - intros Hnd p Hin Hcat. rewrite count_cards_by_id.
    apply unique_id_once.
    + now apply NoDup_map_filter.
    + apply filter_In. split; [exact Hin|]. now apply String.eqb_eq.
Qed.

Lemma renderProducts_fragments_witness :
  map source (productList (execState (renderProducts (Some "cat-dresses")) initialPage))
  = filter (fun p => String.eqb (categoryId p) "cat-dresses") (products initialPage).
Proof.
  refine (proj1 (proj2 (proj2 (proj2 (proj2 (proj2
    (renderProducts_fragments initialPage "cat-dresses" _))))))).
  discriminate.
Defined.

(** C9: rendering twice in a row with the same filter, the collection
    not touched in between, leaves the same fragment sequence as
    rendering once; rendering does not change the collection. *)
Theorem renderProducts_twice (s : page) (c : Js.optional string) :
  let s1 := execState (renderProducts c) s in
  let s2 := execState (renderProducts c) s1 in
  productList s2 = productList s1
  /\ products s1 = products s
  /\ products s2 = products s
  /\ productList (execState (renderProducts c ;; renderProducts c) s)
     = productList s1.
Proof.
  cbv zeta. rewrite !productList_renderProducts, !products_renderProducts.
  repeat split.
  unfold execState. cbn [bind Monad_state runState].
  rewrite !run_renderProducts. reflexivity.
Qed.

(** ** The click handler *)

Lemma onClick_edit confirm target :
  Js.contains (classList target) "edit-product-btn" = true ->
  onClick confirm target = handleEditIntent (dataset_id target).
Proof. intros H. unfold onClick. now rewrite H. Qed.

Lemma onClick_delete confirm target :
  Js.contains (classList target) "edit-product-btn" = false ->
  Js.contains (classList target) "delete-product-btn" = true ->
  onClick confirm target = handleDeleteIntent confirm (dataset_id target).
Proof. intros He Hd. unfold onClick. now rewrite He, Hd. Qed.

(** C1: a confirmed delete replaces the collection by the prior one
    without the products whose id is the given one, emits one success
    notification and then renders again with the value of the category
    selector. *)
Theorem delete_confirmed
    (confirm : string -> bool) (productId : Js.optional string) (s : page) :
  confirm confirmDelete = true ->
  let s' := execState (handleDeleteIntent confirm productId) s in
  products s'
  = filter (fun p => negb (Js.strict_eq (id p) productId)) (products s)
  /\ (forall p, In p (products s')
                <-> In p (products s) /\ Some (id p) <> productId)
  /\ effects s'
     = (effects s ++ [Notification "Product deleted successfully!" "success";
                      Render (Some (filterCategorySelect s))])%list
  /\ s' = execState (renderProducts (Some (filterCategorySelect s)))
            (emit (Notification "Product deleted successfully!" "success")
               (set_products (products s') s))
  /\ productList s'
     = map productCard
         (filter (selected (Some (filterCategorySelect s))) (products s')).
Proof.
  intros Hyes. cbv zeta. unfold execState.
  rewrite run_renderProducts, (run_handleDeleteIntent_yes _ _ _ Hyes).
  cbn [snd]. cbv zeta.
  cbn [products effects productList filterCategorySelect set_productList emit
         set_products].
  split; [reflexivity|]. split; [|split; [|split; reflexivity]].
  - intros p. rewrite filter_In, negb_true_iff, strict_eq_false.
    split; intros [Hin Hne]; (split; [exact Hin | congruence]).
  - now rewrite <- app_assoc.
Qed.

Lemma delete_confirmed_witness :
  products
    (execState (handleDeleteIntent (fun _ => true) (Some "prod-dress-001"))
       initialPage)
  = filter (fun p => negb (Js.strict_eq (id p) (Some "prod-dress-001")))
      (products initialPage).
Proof.
  refine (proj1 (delete_confirmed (fun _ => true) (Some "prod-dress-001")
                   initialPage _)).
  reflexivity.
Defined.

(** C2: a declined or dismissed delete changes nothing: the collection,
    the notifications, the render calls and the display surface are as
    before. *)
Theorem delete_declined
    (confirm : string -> bool) (productId : Js.optional string) (s : page) :
  confirm confirmDelete = false ->
  let s' := execState (handleDeleteIntent confirm productId) s in
  s' = s
  /\ products s' = products s
  /\ effects s' = effects s
  /\ productList s' = productList s.
Proof.
  intros Hno. cbv zeta. unfold execState.
  rewrite (run_handleDeleteIntent_no _ _ _ Hno). cbn [snd]. auto.
Qed.

Lemma delete_declined_witness :
  execState (handleDeleteIntent (fun _ => false) (Some "prod-dress-001"))
    initialPage
  = initialPage.
Proof.
  refine (proj1 (delete_declined (fun _ => false) (Some "prod-dress-001")
                   initialPage _)).
  reflexivity.
Defined.

(** C10: a confirmed delete with an id that no product has keeps the
    collection as it is, order and contents, and still emits the success
    notification and renders again. *)
Theorem delete_confirmed_miss
    (confirm : string -> bool) (productId : Js.optional string) (s : page) :
  confirm confirmDelete = true ->
  (forall p, In p (products s) -> Some (id p) <> productId) ->
  let s' := execState (handleDeleteIntent confirm productId) s in
  products s' = products s
  /\ effects s'
     = (effects s ++ [Notification "Product deleted successfully!" "success";
                      Render (Some (filterCategorySelect s))])%list
  /\ productList s'
     = productList
         (execState (renderProducts (Some (filterCategorySelect s))) s).
Proof.
  intros Hyes Hmiss. cbv zeta. unfold execState.
  rewrite run_renderProducts, (run_handleDeleteIntent_yes _ _ _ Hyes).
  cbn [snd]. cbv zeta.
  rewrite (filter_keeps_all _ (products s)).
  - cbn [products effects productList set_productList emit set_products].
    repeat split. now rewrite <- app_assoc.
  - intros p Hin. apply negb_true_iff, strict_eq_false.
    intros Heq. apply (Hmiss p Hin). congruence.
Qed.

Lemma delete_confirmed_miss_witness :
  products
    (execState (handleDeleteIntent (fun _ => true) (Some "prod-missing"))
       initialPage)
  = products initialPage.
Proof.
  refine (proj1 (delete_confirmed_miss (fun _ => true) (Some "prod-missing")
                   initialPage _ _)).
  - reflexivity.
  - intros p [<- | []]. discriminate.
Defined.

(** C3, as stated, fails: on the freshly loaded page an edit intent with
    an id that no product has changes the label of the submit control
    from "Save" to "Update Product". *)
Lemma edit_miss_relabels :
  ~ (forall (s : page) (productId : Js.optional string),
        (forall p, In p (products s) -> Some (id p) <> productId) ->
        let s' := execState (handleEditIntent productId) s in
        products s' = products s /\ saveProductBtn s' = saveProductBtn s).
Proof.
  intros H.
  assert (Hmiss : forall p, In p (products initialPage)
                            -> Some (id p) <> Some "prod-missing").
  { intros p [<- | []]. discriminate. }
  destruct (H initialPage (Some "prod-missing") Hmiss) as [_ Hlabel].
  discriminate Hlabel.
Qed.

Lemma find_miss (productId : Js.optional string) (ps : list product) :
  (forall p, In p ps -> Some (id p) <> productId) ->
  find (fun p => Js.strict_eq (id p) productId) ps = None.
Proof.
  intros Hmiss. destruct (find _ ps) as [p|] eqn:Hf; [|reflexivity].
  apply find_some in Hf as [Hin Heq]. apply strict_eq_true in Heq.
  exfalso. apply (Hmiss p Hin). congruence.
Qed.

(** C3, amended: an edit intent with an id that no product has leaves
    the collection, the form, the display surface and the effects
    unchanged, and sets the label of the submit control to
    "Update Product", so the label is unchanged only when it already was
    that. *)
Theorem edit_miss
    (productId : Js.optional string) (s : page) :
  (forall p, In p (products s) -> Some (id p) <> productId) ->
  let s' := execState (handleEditIntent productId) s in
  s' = set_saveProductBtn "Update Product" s
  /\ products s' = products s
  /\ saveProductBtn s' = "Update Product"
  /\ (saveProductBtn s' = saveProductBtn s
      <-> saveProductBtn s = "Update Product").
Proof.
  intros Hmiss. cbv zeta. unfold execState.
  rewrite run_handleEditIntent, (find_miss _ _ Hmiss). cbn.
  repeat split; congruence.
Qed.

Lemma edit_miss_witness :
  saveProductBtn (execState (handleEditIntent (Some "prod-missing")) initialPage)
  = "Update Product".
Proof.
  refine (proj1 (proj2 (proj2 (edit_miss (Some "prod-missing") initialPage _)))).
  intros p [<- | []]. discriminate.
Defined.

(** * Further properties of the click handler *)

(** ** More list facts *)

Lemma find_first {A : Type} (f : A -> bool) (l : list A) (x : A) :
  find f l = Some x ->
  exists pre post,
    l = (pre ++ x :: post)%list /\ f x = true
    /\ forall y, In y pre -> f y = false.
Proof.
  induction l as [|a l IH]; simpl; [discriminate|].
  destruct (f a) eqn:Hfa.
  - intros [= <-]. exists [], l. repeat split; trivial. intros y [].
  - intros Hfind. destruct (IH Hfind) as (pre & post & -> & Hx & Hpre).
    exists (a :: pre), post. repeat split; trivial.
    intros y [<- | Hy]; auto.
Qed.

Lemma filter_twice {A : Type} (f : A -> bool) (l : list A) :
  filter f (filter f l) = filter f l.
Proof.
  apply filter_keeps_all. intros x Hx. apply filter_In in Hx. tauto.
Qed.

Lemma filter_swap {A : Type} (f g : A -> bool) (l : list A) :
  filter f (filter g l) = filter g (filter f l).
Proof.
  induction l as [|a l IH]; simpl; [reflexivity|].
  destruct (g a) eqn:Hg; destruct (f a) eqn:Hf; simpl;
    rewrite ?Hg, ?Hf, IH; reflexivity.
Qed.

Lemma filter_length_all {A : Type} (f : A -> bool) (l : list A) :
  length (filter f l) = length l <-> forall x, In x l -> f x = true.
Proof.
  split.
  - intros H x Hx. apply filter_length_forallb in H.
    rewrite forallb_forall in H. now apply H.
  - intros H. now rewrite filter_keeps_all.
Qed.

(** ** Edit intent *)

Lemma edit_frame (productId : Js.optional string) (s : page) :
  let s' := execState (handleEditIntent productId) s in
  products s' = products s
  /\ effects s' = effects s
  /\ productList s' = productList s
  /\ filterCategorySelect s' = filterCategorySelect s
  /\ saveProductBtn s' = "Update Product".
Proof.
  cbv zeta. unfold execState. rewrite run_handleEditIntent. cbn [snd].
  destruct (find _ (products s)); cbn; auto.
Qed.

(** X1: the edit branch is tested first, so a click on an element that
    carries the edit class never prompts, deletes, notifies or renders,
    even when it also carries the delete class and the user would answer
    yes; it only puts the submit control in update mode. *)
Theorem edit_click_never_deletes
    (confirm : string -> bool) (t : element) (s : page) :
  Js.contains (classList t) "edit-product-btn" = true ->
  let s' := execState (onClick confirm t) s in
  products s' = products s
  /\ effects s' = effects s
  /\ productList s' = productList s
  /\ filterCategorySelect s' = filterCategorySelect s
  /\ saveProductBtn s' = "Update Product".
Proof.
  intros He. rewrite (onClick_edit confirm t He). apply edit_frame.
Qed.

Lemma edit_click_never_deletes_witness :
  products (execState (onClick (fun _ => true) bothClasses) initialPage)
  = products initialPage.
Proof.
  refine (proj1 (edit_click_never_deletes (fun _ => true) bothClasses
                   initialPage _)).
  reflexivity.
Defined.

(** X2: when some product has the given id, the edit intent hands the
    first such product of the collection, in collection order, to the
    form: every product before it has another id. *)
Theorem edit_hit_first_match (productId : string) (s : page) :
  (exists p, In p (products s) /\ id p = productId) ->
  exists pre p post,
    products s = (pre ++ p :: post)%list
    /\ id p = productId
    /\ (forall q, In q pre -> id q <> productId)
    /\ productForm (execState (handleEditIntent (Some productId)) s) = Some p.
Proof.
  intros (p0 & Hin & Hid).
  unfold execState. rewrite run_handleEditIntent. cbn [snd].
  destruct (find _ (products s)) as [p|] eqn:Hfind.
  - destruct (find_first _ _ _ Hfind) as (pre & post & Hsplit & Hp & Hpre).
    exists pre, p, post. repeat split; trivial.
    + apply strict_eq_true in Hp. congruence.
    + intros q Hq Heq. apply Hpre in Hq. apply strict_eq_false in Hq.
      congruence.
  - exfalso. pose proof (find_none _ _ Hfind p0 Hin) as Hno.
    apply strict_eq_false in Hno. congruence.
Qed.

Lemma edit_hit_first_match_witness :
  exists pre p post,
    products initialPage = (pre ++ p :: post)%list
    /\ id p = "prod-dress-001"
    /\ (forall q, In q pre -> id q <> "prod-dress-001")
    /\ productForm
         (execState (handleEditIntent (Some "prod-dress-001")) initialPage)
       = Some p.
Proof.
  apply (edit_hit_first_match "prod-dress-001" initialPage).
  exists dress. split; [left|]; reflexivity.
Defined.

(** X3: an edit intent repeated with the same id changes nothing more:
    the page after two is the page after one. *)
Theorem edit_twice (productId : Js.optional string) (s : page) :
  execState (handleEditIntent productId ;; handleEditIntent productId) s
  = execState (handleEditIntent productId) s.
Proof.
  unfold execState. cbn [bind Monad_state runState].
  rewrite !run_handleEditIntent.
  destruct (find _ (products s)) as [p|] eqn:Hfind;
    cbn [products set_saveProductBtn set_productForm];
    rewrite Hfind; reflexivity.
Qed.

(** ** Delete intent *)

Lemma products_after_delete confirm productId s :
  confirm confirmDelete = true ->
  products (execState (handleDeleteIntent confirm productId) s)
  = filter (fun p => negb (Js.strict_eq (id p) productId)) (products s).
Proof.
  intros Hyes. unfold execState.
  rewrite (run_handleDeleteIntent_yes _ _ _ Hyes). reflexivity.
Qed.

Lemma delete_frame confirm productId s :
  let s' := execState (handleDeleteIntent confirm productId) s in
  filterCategorySelect s' = filterCategorySelect s
  /\ saveProductBtn s' = saveProductBtn s
  /\ productForm s' = productForm s.
Proof.
  cbv zeta. unfold execState. destruct (confirm confirmDelete) eqn:Hc.
  - rewrite (run_handleDeleteIntent_yes _ _ _ Hc). cbn. auto.
  - rewrite (run_handleDeleteIntent_no _ _ _ Hc). cbn. auto.
Qed.

Lemma kept_iff (productId : string) (p : product) :
  negb (Js.strict_eq (id p) (Some productId)) = true <-> id p <> productId.
Proof.
  rewrite negb_true_iff, strict_eq_false. split; congruence.
Qed.

(** X4: after a confirmed delete no product of the collection has the
    deleted id, so an edit intent on that id afterwards finds nothing and
    hands nothing to the form. *)
Theorem delete_removes_id
    (confirm : string -> bool) (productId : string) (s : page) :
  confirm confirmDelete = true ->
  let s' := execState (handleDeleteIntent confirm (Some productId)) s in
  (forall p, In p (products s') -> id p <> productId)
  /\ find (fun p => Js.strict_eq (id p) (Some productId)) (products s') = None
  /\ productForm (execState (handleEditIntent (Some productId)) s')
     = productForm s.
Proof.
  intros Hyes. cbv zeta.
  assert (Hgone : forall p,
             In p (products (execState
                               (handleDeleteIntent confirm (Some productId)) s))
             -> id p <> productId).
  { intros p. rewrite (products_after_delete _ _ _ Hyes), filter_In, kept_iff.
    tauto. }
  assert (Hfind : find (fun p => Js.strict_eq (id p) (Some productId))
                    (products (execState
                       (handleDeleteIntent confirm (Some productId)) s))
                  = None).
  { apply find_miss. intros p Hp Heq. apply (Hgone p Hp). congruence. }
  repeat split; trivial.
  unfold execState at 1. rewrite run_handleEditIntent, Hfind. cbn [snd].
  cbn [productForm set_saveProductBtn].
  apply (delete_frame confirm (Some productId) s).
Qed.

Lemma delete_removes_id_witness :
  find (fun p => Js.strict_eq (id p) (Some "prod-dress-001"))
    (products (execState
                 (handleDeleteIntent (fun _ => true) (Some "prod-dress-001"))
                 initialPage))
  = None.
Proof.
  refine (proj1 (proj2 (delete_removes_id (fun _ => true) "prod-dress-001"
                          initialPage _))).
  reflexivity.
Defined.

(** X5: a confirmed delete repeated with the same id removes nothing
    more, yet notifies and renders a second time. *)
Theorem delete_twice
    (confirm : string -> bool) (productId : Js.optional string) (s : page) :
  confirm confirmDelete = true ->
  let s1 := execState (handleDeleteIntent confirm productId) s in
  let s2 := execState (handleDeleteIntent confirm productId) s1 in
  products s2 = products s1
  /\ productList s2 = productList s1
  /\ effects s2
     = (effects s1 ++ [Notification "Product deleted successfully!" "success";
                       Render (Some (filterCategorySelect s))])%list.
Proof.
  intros Hyes. cbv zeta. unfold execState.
  rewrite !(run_handleDeleteIntent_yes _ _ _ Hyes). cbn [snd]. cbv zeta.
  cbn [products effects productList filterCategorySelect set_productList emit
         set_products].
  rewrite filter_twice. repeat split. now rewrite <- app_assoc.
Qed.

Lemma delete_twice_witness :
  products
    (execState (handleDeleteIntent (fun _ => true) (Some "prod-dress-001"))
       (execState (handleDeleteIntent (fun _ => true) (Some "prod-dress-001"))
          initialPage))
  = products
      (execState (handleDeleteIntent (fun _ => true) (Some "prod-dress-001"))
         initialPage).
Proof.
  refine (proj1 (delete_twice (fun _ => true) (Some "prod-dress-001")
                   initialPage _)).
  reflexivity.
Defined.

(** X6: two confirmed deletes commute: deleting [a] then [b] leaves the
    same page, collection, display and effects, as deleting [b] then
    [a]. *)
Theorem delete_commute
    (confirm : string -> bool) (a b : Js.optional string) (s : page) :
  confirm confirmDelete = true ->
  execState (handleDeleteIntent confirm a ;; handleDeleteIntent confirm b) s
  = execState (handleDeleteIntent confirm b ;; handleDeleteIntent confirm a) s.
Proof.
  intros Hyes. unfold execState. cbn [bind Monad_state runState].
  rewrite !(run_handleDeleteIntent_yes _ _ _ Hyes). cbn [snd]. cbv zeta.
  cbn [products effects productList filterCategorySelect saveProductBtn
         productForm set_productList emit set_products].
  rewrite (filter_swap (fun p => negb (Js.strict_eq (id p) b))
             (fun p => negb (Js.strict_eq (id p) a))).
  reflexivity.
Qed.

Lemma delete_commute_witness :
  execState (handleDeleteIntent (fun _ => true) (Some "prod-dress-001") ;;
             handleDeleteIntent (fun _ => true) (Some "prod-missing"))
    initialPage
  = execState (handleDeleteIntent (fun _ => true) (Some "prod-missing") ;;
               handleDeleteIntent (fun _ => true) (Some "prod-dress-001"))
      initialPage.
Proof.
  apply (delete_commute (fun _ => true)). reflexivity.
Defined.

(** X7: a confirmed delete never lengthens the collection, and keeps its
    length exactly when no product has the given id. *)
Theorem delete_length
    (confirm : string -> bool) (productId : Js.optional string) (s : page) :
  confirm confirmDelete = true ->
  let s' := execState (handleDeleteIntent confirm productId) s in
  length (products s') <= length (products s)
  /\ (length (products s') = length (products s)
      <-> forall p, In p (products s) -> Some (id p) <> productId).
Proof.
  intros Hyes. cbv zeta. rewrite (products_after_delete _ _ _ Hyes).
  split; [apply filter_length_le|].
  rewrite filter_length_all. split; intros H p Hp.
  - specialize (H p Hp). apply negb_true_iff, strict_eq_false in H. congruence.
  - apply negb_true_iff, strict_eq_false. specialize (H p Hp). congruence.
Qed.

Lemma delete_length_witness :
  length (products
            (execState (handleDeleteIntent (fun _ => true) (Some "prod-dress-001"))
               initialPage))
  <= length (products initialPage).
Proof.
  refine (proj1 (delete_length (fun _ => true) (Some "prod-dress-001")
                   initialPage _)).
  reflexivity.
Defined.

(** X8: when ids are unique, a confirmed delete of the id of a product of
    the collection removes exactly that one product: the length drops by
    one, every other product stays, and ids remain unique. *)
Theorem delete_exactly_one
    (confirm : string -> bool) (p : product) (s : page) :
  confirm confirmDelete = true ->
  NoDup (map id (products s)) ->
  In p (products s) ->
  let s' := execState (handleDeleteIntent confirm (Some (id p))) s in
  S (length (products s')) = length (products s)
  /\ ~ In p (products s')
  /\ (forall q, In q (products s) -> q <> p -> In q (products s'))
  /\ NoDup (map id (products s')).
Proof.
  intros Hyes Hnd Hin. cbv zeta. rewrite (products_after_delete _ _ _ Hyes).
  repeat split.
  - pose proof (filter_length (fun q => String.eqb (id q) (id p)) (products s))
      as Hlen.
    rewrite (unique_id_once _ _ Hnd Hin) in Hlen.
    cbn [Js.strict_eq]. lia.
  - rewrite filter_In, kept_iff. tauto.
  - intros q Hq Hne. apply filter_In. split; [exact Hq|]. apply kept_iff.
    intros Heq. apply Hne.
    clear Hyes. revert Hnd Hin Hq Heq. generalize (products s) as l.
    induction l as [|a l IH]; simpl; [tauto|].
    intros Hnd [-> | Hp] [-> | Hq'] Heq; trivial; inversion Hnd; subst.
    + exfalso. rewrite <- Heq in *. now apply H1, in_map.
    + exfalso. rewrite Heq in *. now apply H1, in_map.
    + now apply IH.
  - now apply NoDup_map_filter.
Qed.

Lemma delete_exactly_one_witness :
  S (length (products
               (execState (handleDeleteIntent (fun _ => true) (Some (id dress)))
                  initialPage)))
  = length (products initialPage).
Proof.
  refine (proj1 (delete_exactly_one (fun _ => true) dress initialPage _ _ _)).
  - reflexivity.
  - repeat constructor. intros [].
  - left. reflexivity.
Defined.

(** X9: a button without a [data-id] attribute gives [undefined] as the
    id, which equals no product's id: a confirmed delete then removes
    nothing whatever the collection is, and still notifies and renders;
    an edit intent hands nothing to the form and still relabels the
    submit control. *)
Theorem missing_data_id (confirm : string -> bool) (s : page) :
  confirm confirmDelete = true ->
  let d := execState (onClick confirm (deleteButton None)) s in
  let e := execState (onClick confirm (editButton None)) s in
  products d = products s
  /\ effects d
     = (effects s ++ [Notification "Product deleted successfully!" "success";
                      Render (Some (filterCategorySelect s))])%list
  /\ products e = products s
  /\ productForm e = productForm s
  /\ saveProductBtn e = "Update Product".
Proof.
  intros Hyes. cbv zeta.
  rewrite (onClick_delete confirm (deleteButton None)) by reflexivity.
  rewrite (onClick_edit confirm (editButton None)) by reflexivity.
  cbn [dataset_id deleteButton editButton]. unfold execState.
  rewrite (run_handleDeleteIntent_yes _ _ _ Hyes), run_handleEditIntent.
  rewrite (find_miss None (products s)) by discriminate.
  cbn [snd]. cbv zeta.
  rewrite (filter_keeps_all _ (products s)) by reflexivity.
  cbn. repeat split. now rewrite <- app_assoc.
Qed.

Lemma missing_data_id_witness :
  products (execState (onClick (fun _ => true) (deleteButton None)) initialPage)
  = products initialPage.
Proof.
  refine (proj1 (missing_data_id (fun _ => true) initialPage _)).
  reflexivity.
Defined.

(** X10: deleting the product that is being edited does not leave update
    mode: after an edit intent and a confirmed delete of the same product
    id, the submit control still reads "Update Product" and the form
    still holds a record with that id, while the collection has none. *)
Theorem edit_then_delete_stays_in_update_mode
    (confirm : string -> bool) (p : product) (s : page) :
  confirm confirmDelete = true ->
  In p (products s) ->
  let s' := execState (handleEditIntent (Some (id p)) ;;
                       handleDeleteIntent confirm (Some (id p))) s in
  saveProductBtn s' = "Update Product"
  /\ (exists q, productForm s' = Some q /\ id q = id p
                /\ ~ In q (products s'))
  /\ (forall q, In q (products s') -> id q <> id p).
Proof.
  intros Hyes Hin. cbv zeta. unfold execState.
  cbn [bind Monad_state runState].
  rewrite run_handleEditIntent, (run_handleDeleteIntent_yes _ _ _ Hyes).
  cbn [snd]. cbv zeta.
  destruct (find _ (products s)) as [q|] eqn:Hfind.
  - cbn [products effects productList filterCategorySelect saveProductBtn
           productForm set_productList emit set_products set_saveProductBtn
           set_productForm].
    apply find_some in Hfind as [Hq Hid]. apply strict_eq_true in Hid.
    assert (Hqid : id q = id p) by congruence.
    repeat split.
    + exists q. repeat split; trivial.
      rewrite filter_In, kept_iff. tauto.
    + intros r. rewrite filter_In, kept_iff. tauto.
  - exfalso. pose proof (find_none _ _ Hfind p Hin) as Hno.
    apply strict_eq_false in Hno. congruence.
Qed.

Lemma edit_then_delete_stays_in_update_mode_witness :
  saveProductBtn
    (execState (handleEditIntent (Some (id dress)) ;;
                handleDeleteIntent (fun _ => true) (Some (id dress)))
       initialPage)
  = "Update Product".
Proof.
  refine (proj1 (edit_then_delete_stays_in_update_mode (fun _ => true) dress
                   initialPage _ _)).
  - reflexivity.
  - left. reflexivity.
Defined.

(** X11: after a confirmed delete the display shows no card of a product
    with the deleted id, and every card it shows stands for a product
    that is still in the collection. *)
Theorem delete_display_drops_id
    (confirm : string -> bool) (productId : string) (s : page) :
  confirm confirmDelete = true ->
  let s' := execState (handleDeleteIntent confirm (Some productId)) s in
  Forall (fun f => id (source f) <> productId) (productList s')
  /\ Forall (fun f => In (source f) (products s')) (productList s').
Proof.
  intros Hyes. cbv zeta. unfold execState.
  rewrite (run_handleDeleteIntent_yes _ _ _ Hyes). cbn [snd]. cbv zeta.
  cbn [products productList set_productList emit set_products].
  split; apply Forall_forall; intros f Hf;
    apply in_map_iff in Hf as (q & <- & Hq);
    apply filter_In in Hq as [Hq _]; cbn [source productCard].
  - apply filter_In in Hq as [_ Hq]. now apply kept_iff.
  - exact Hq.
Qed.

Lemma delete_display_drops_id_witness :
  Forall (fun f => id (source f) <> "prod-dress-001")
    (productList
       (execState (handleDeleteIntent (fun _ => true) (Some "prod-dress-001"))
          initialPage)).
Proof.
  refine (proj1 (delete_display_drops_id (fun _ => true) "prod-dress-001"
                   initialPage _)).
  reflexivity.
Defined.

(** ** Runs of clicks *)

Lemma filter_compose {A : Type} (f g : A -> bool) (l : list A) :
  filter g (filter f l) = filter (fun x => f x && g x) l.
Proof.
  induction l as [|a l IH]; simpl; [reflexivity|].
  destruct (f a); simpl; [destruct (g a)|]; now rewrite IH.
Qed.

Lemma handleClick_cases (c : click) (s : page) :
  let s' := execState (handleClick c) s in
  (isEditClick c = true
   /\ s' = execState (handleEditIntent (dataset_id (target c))) s)
  \/ (isEditClick c = false /\ isConfirmedDelete c = true
      /\ s' = execState (handleDeleteIntent (fun _ => true)
                           (dataset_id (target c))) s)
  \/ (isEditClick c = false /\ isConfirmedDelete c = false /\ s' = s).
Proof.
  cbv zeta. unfold handleClick, onClick, isEditClick, isConfirmedDelete.
  destruct (Js.contains (classList (target c)) "edit-product-btn");
    [left; auto|].
  destruct (Js.contains (classList (target c)) "delete-product-btn");
    cbn [negb andb].
  - destruct (answer c) eqn:Ha.
    + right; left. auto.
    + right; right. auto.
  - right; right. auto.
Qed.

Lemma handleClick_step (c : click) (s : page) :
  let s' := execState (handleClick c) s in
  filterCategorySelect s' = filterCategorySelect s
  /\ (exists keep, products s' = filter keep (products s))
  /\ saveProductBtn s'
     = (if isEditClick c then "Update Product" else saveProductBtn s)
  /\ effects s'
     = (effects s
        ++ (if isConfirmedDelete c
            then [Notification "Product deleted successfully!" "success";
                  Render (Some (filterCategorySelect s))]
            else []))%list
  /\ (inSync s -> inSync s').
Proof.
  cbv zeta.
  assert (Hall : products s = filter (fun _ => true) (products s)).
  { symmetry. now apply filter_keeps_all. }
  destruct (handleClick_cases c s) as [[He ->]|[(He & Hd & ->)|(He & Hd & ->)]].
  - assert (Hd : isConfirmedDelete c = false).
    { unfold isConfirmedDelete. unfold isEditClick in He. now rewrite He. }
    rewrite He, Hd, app_nil_r.
    destruct (edit_frame (dataset_id (target c)) s)
      as (Hp & Hef & Hl & Hf & Hb).
    repeat split; trivial.
    + exists (fun _ => true). now rewrite Hp.
    + unfold inSync. now rewrite Hp, Hl, Hf.
  - rewrite He, Hd. unfold execState.
    rewrite (run_handleDeleteIntent_yes (fun _ => true)) by reflexivity.
    cbn [snd]. cbv zeta. unfold inSync.
    cbn [products effects productList filterCategorySelect saveProductBtn
           set_productList emit set_products].
    repeat split; trivial.
    + eexists. reflexivity.
    + now rewrite <- app_assoc.
  - rewrite He, Hd, app_nil_r. repeat split; trivial.
    exists (fun _ => true). exact Hall.
Qed.

Lemma exec_handleClicks_cons (c : click) (cs : list click) (s : page) :
  execState (handleClicks (c :: cs)) s
  = execState (handleClicks cs) (execState (handleClick c) s).
Proof.
  unfold handleClicks, execState. cbn [forEach bind Monad_state runState].
  destruct (runState (handleClick c) s). reflexivity.
Qed.

Lemma exec_handleClicks_nil (s : page) : execState (handleClicks []) s = s.
Proof. reflexivity. Qed.

(** X12: no run of clicks adds, reorders or changes a product: whatever
    is clicked and answered, the collection afterwards is the collection
    before with some products filtered out, so it is no longer, contains
    only products it had, and keeps ids unique when they were. *)
Theorem clicks_only_remove (cs : list click) (s : page) :
  let s' := execState (handleClicks cs) s in
  (exists keep, products s' = filter keep (products s))
  /\ incl (products s') (products s)
  /\ length (products s') <= length (products s)
  /\ (NoDup (map id (products s)) -> NoDup (map id (products s'))).
Proof.
  cbv zeta.
  assert (Hkeep : exists keep,
             products (execState (handleClicks cs) s)
             = filter keep (products s)).
  { revert s. induction cs as [|c cs IH]; intros s.
    - exists (fun _ => true). rewrite exec_handleClicks_nil.
      symmetry. now apply filter_keeps_all.
    - rewrite exec_handleClicks_cons.
      destruct (IH (execState (handleClick c) s)) as [g Hg].
      destruct (handleClick_step c s) as (_ & [f Hf] & _).
      exists (fun x => f x && g x). now rewrite Hg, Hf, filter_compose. }
  destruct Hkeep as [keep Hkeep]. rewrite Hkeep.
  split; [now exists keep|]. split; [|split].
  - intros x Hx. apply filter_In in Hx. tauto.
  - apply filter_length_le.
  - apply NoDup_map_filter.
Qed.

(** X13: the display, once it shows the collection under the selected
    category, keeps doing so through any run of clicks. *)
Theorem clicks_keep_display_in_sync (cs : list click) (s : page) :
  inSync s -> inSync (execState (handleClicks cs) s).
Proof.
  revert s. induction cs as [|c cs IH]; intros s Hs.
  - exact Hs.
  - rewrite exec_handleClicks_cons. apply IH.
    now apply (handleClick_step c s).
Qed.

Lemma clicks_keep_display_in_sync_witness :
  inSync (execState
            (handleClicks [ {| target := deleteButton (Some "prod-dress-001");
                               answer := true |} ])
            (execState (renderProducts (Some EmptyString)) initialPage)).
Proof.
  apply clicks_keep_display_in_sync. reflexivity.
Defined.

Lemma clicks_keep_label (cs : list click) :
  forall s, saveProductBtn s = "Update Product" ->
            saveProductBtn (execState (handleClicks cs) s) = "Update Product".
Proof.
  induction cs as [|c cs IH]; intros s Hs; [exact Hs|].
  rewrite exec_handleClicks_cons. apply IH.
  destruct (handleClick_step c s) as (_ & _ & Hb & _). rewrite Hb.
  now destruct (isEditClick c).
Qed.

(** X14: the submit control enters update mode at the first click on an
    edit button and no click takes it back: after a run with an edit
    click the label is "Update Product", after a run without one it is
    what it was. *)
Theorem clicks_label (cs : list click) (s : page) :
  saveProductBtn (execState (handleClicks cs) s)
  = (if existsb isEditClick cs then "Update Product" else saveProductBtn s).
Proof.
  revert s. induction cs as [|c cs IH]; intros s; [reflexivity|].
  rewrite exec_handleClicks_cons. cbn [existsb].
  destruct (handleClick_step c s) as (_ & _ & Hb & _).
  destruct (isEditClick c); cbn [orb].
  - now apply clicks_keep_label.
  - now rewrite IH, Hb.
Qed.

(** X15: the effects of a run are exactly one success notification
    followed by one render call, with the selector's value, per
    confirmed click on a delete button, in click order; edit clicks,
    declined deletes and other clicks add nothing. *)
Theorem clicks_effects (cs : list click) (s : page) :
  effects (execState (handleClicks cs) s)
  = (effects s
     ++ flat_map
          (fun c => if isConfirmedDelete c
                    then [Notification "Product deleted successfully!" "success";
                          Render (Some (filterCategorySelect s))]
                    else [])
          cs)%list.
Proof.
  revert s. induction cs as [|c cs IH]; intros s.
  - rewrite exec_handleClicks_nil. cbn [flat_map]. now rewrite app_nil_r.
  - rewrite exec_handleClicks_cons, IH. cbn [flat_map].
    destruct (handleClick_step c s) as (Hf & _ & _ & He & _).
    now rewrite He, Hf, app_assoc.
Qed.

(** * Further properties of a card's image *)

(** X16: when the two interpolated values hold no double quote,
    ampersand, NUL or carriage return, the image element built from the
    markup of line 19 is the one the template is written to declare:
    the resolved URL as source, the name or "Product" as alt text, the
    class, and the fallback handler; its source and alt text are not
    empty. *)
Theorem rendered_as_declared (p : product) :
  interpolatesPlainly p = true ->
  exists e,
    image (productCard p) = Some e
    /\ e = imgElement p
    /\ src e <> EmptyString
    /\ alt e <> EmptyString.
Proof.
  intros Hp. exists (imgElement p). split; [now apply renderImg_plain|].
  split; [reflexivity|]. cbn [imgElement src alt]. split.
  - unfold resolveImageUrl. destruct (imageUrl p) as [[|c u]|];
      try discriminate.
    destruct (Js.truthy _ && isValidUrl _); discriminate.
  - unfold resolveAlt. destruct (name p) as [[|c n]|]; discriminate.
Qed.

Lemma rendered_as_declared_witness :
  exists e,
    image (productCard dress) = Some e
    /\ e = imgElement dress
    /\ src e <> EmptyString
    /\ alt e <> EmptyString.
Proof.
  apply (rendered_as_declared dress). reflexivity.
Defined.

(** X17: for such a product, load failures touch only the source and
    the handler of the rendered image: after any number of them the alt
    text and the class are as rendered, and the source is the rendered
    one if there was no failure and the Image Error placeholder
    otherwise. *)
Theorem load_errors_keep_label (p : product) (n : nat) :
  interpolatesPlainly p = true ->
  exists e,
    image (productCard p) = Some e
    /\ alt (fst (loadErrors n e)) = alt e
    /\ className (fst (loadErrors n e)) = className e
    /\ src (fst (loadErrors n e))
       = (if Nat.eqb n 0 then src e else imageErrorPlaceholder).
Proof.
  intros Hp. exists (imgElement p). split; [now apply renderImg_plain|].
  destruct n as [|n].
  - cbn. auto.
  - cbn [loadErrors Nat.eqb]. rewrite loadError_imgElement.
    rewrite loadErrors_disarmed by reflexivity. cbn. auto.
Qed.

Lemma load_errors_keep_label_witness :
  exists e,
    image (productCard dress) = Some e
    /\ alt (fst (loadErrors 2 e)) = alt e
    /\ className (fst (loadErrors 2 e)) = className e
    /\ src (fst (loadErrors 2 e))
       = (if Nat.eqb 2 0 then src e else imageErrorPlaceholder).
Proof.
  apply (load_errors_keep_label dress 2). reflexivity.
Defined.

(** X18: for such a product, the source of the rendered image is the
    [imageUrl] when that is truthy and passes [isValidUrl], and the No
    Image placeholder when it is absent, empty or fails [isValidUrl]. *)
Theorem rendered_source_policy (p : product) :
  interpolatesPlainly p = true ->
  exists e,
    image (productCard p) = Some e
    /\ (forall u, imageUrl p = Some u -> Js.truthy (Some u) = true ->
                  isValidUrl u = true -> src e = u)
    /\ ((forall u, imageUrl p = Some u ->
                   Js.truthy (Some u) = false \/ isValidUrl u = false) ->
        src e = noImagePlaceholder).
Proof.
  intros Hp. exists (imgElement p). split; [now apply renderImg_plain|].
  cbn [imgElement src]. split.
  - intros u. apply resolveImageUrl_usable.
  - apply resolveImageUrl_unusable.
Qed.

Lemma rendered_source_policy_witness :
  exists e,
    image (productCard dress) = Some e
    /\ (forall u, imageUrl dress = Some u -> Js.truthy (Some u) = true ->
                  isValidUrl u = true -> src e = u)
    /\ ((forall u, imageUrl dress = Some u ->
                   Js.truthy (Some u) = false \/ isValidUrl u = false) ->
        src e = noImagePlaceholder).
Proof.
  apply (rendered_source_policy dress). reflexivity.
Defined.

(** X19: for such a product, the alt text of the rendered image is
    "Product" when the name is absent or empty, and the name
    otherwise. *)
Theorem rendered_alt_policy (p : product) :
  interpolatesPlainly p = true ->
  exists e,
    image (productCard p) = Some e
    /\ (name p = None \/ name p = Some EmptyString -> alt e = "Product")
    /\ (forall n, name p = Some n -> n <> EmptyString -> alt e = n).
Proof.
  intros Hp. exists (imgElement p). split; [now apply renderImg_plain|].
  cbn [imgElement alt]. unfold resolveAlt. split.
  - intros [-> | ->]; reflexivity.
  - intros n -> Hn. destruct n; [congruence | reflexivity].
Qed.

Lemma rendered_alt_policy_witness :
  exists e,
    image (productCard dress) = Some e
    /\ (name dress = None \/ name dress = Some EmptyString
        -> alt e = "Product")
    /\ (forall n, name dress = Some n -> n <> EmptyString -> alt e = n).
Proof.
  apply (rendered_alt_policy dress). reflexivity.
Defined.

(** X20: for such a product, the fallback of the rendered image runs on
    the first load failure only: it puts the Image Error placeholder and
    clears the handler, and no later failure assigns the source
    again. *)
Theorem rendered_fallback_once (p : product) (n : nat) :
  interpolatesPlainly p = true ->
  exists e e1,
    image (productCard p) = Some e
    /\ loadError e = (e1, true)
    /\ snd (loadErrors n e) <= 1
    /\ loadErrors (S n) e = (e1, 1)
    /\ src e1 = imageErrorPlaceholder
    /\ onerror e1 = None
    /\ loadError e1 = (e1, false)
    /\ loadErrors n e1 = (e1, 0).
Proof.
  intros Hp.
  set (e1 := {| src := imageErrorPlaceholder; alt := resolveAlt p;
                className := "product-image"; onerror := None |}).
  exists (imgElement p), e1. split; [now apply renderImg_plain|].
  assert (Hrest : forall k, loadErrors k e1 = (e1, 0)).
  { intros k. now apply loadErrors_disarmed. }
  assert (Hstep : forall k, loadErrors (S k) (imgElement p) = (e1, 1)).
  { intros k. cbn [loadErrors]. rewrite loadError_imgElement. fold e1.
    rewrite Hrest. reflexivity. }
  repeat split; auto.
  destruct n as [|k]; [simpl; lia|]. rewrite Hstep. simpl. lia.
Qed.

Lemma rendered_fallback_once_witness :
  exists e e1,
    image (productCard dress) = Some e
    /\ loadError e = (e1, true)
    /\ snd (loadErrors 3 e) <= 1
    /\ loadErrors 4 e = (e1, 1)
    /\ src e1 = imageErrorPlaceholder
    /\ onerror e1 = None
    /\ loadError e1 = (e1, false)
    /\ loadErrors 3 e1 = (e1, 0).
Proof.
  apply (rendered_fallback_once dress 3). reflexivity.
Defined.
